(** * A131 RS485 spindle control (Smoothieware, LPC1768)

    A shallow embedding of [src/modules/tools/spindle/A131SpindleControl.cpp]:
    the three command senders [turn_on], [turn_off], [set_speed] and the
    status reader [report_speed], together with the collaborators they
    drive (direction pin, buffered serial port, delay, kernel stream).

    Conventions.
    - A [char] is a [Z] in [0, 256): the target is an ARM EABI machine, where
      plain [char] is unsigned.  Storing an [int] into a [char] is
      [to_char].
    - [int] and [unsigned int] are 32 bits wide; their wrap-around is
      written out in [to_int] and [to_uint].
    - Arrays are lists read with [a.[i]] and written with [a.[i := v]];
      indices are 0-based as in the source.  The protocol tables of the
      source number bytes from 1: protocol byte [k] is index [k - 1]. *)

From Stdlib Require Import ZArith List Bool Lia.
From Stdlib Require Import Floats.PrimFloat Floats.SpecFloat Floats.FloatOps.
From Stdlib Require Import Numbers.Cyclic.Int63.Uint63.
Import ListNotations.
Open Scope Z_scope.

(** ** Machine arithmetic *)

Module CTypes.

(** Conversion of an [int] value to (unsigned) [char]. *)
Definition to_char (z : Z) : Z := z mod 256.

(** Conversion to [unsigned int]. *)
Definition to_uint (z : Z) : Z := z mod 2 ^ 32.

(** Wrap-around of a mathematical result into [int]. *)
Definition to_int (z : Z) : Z := (z + 2 ^ 31) mod 2 ^ 32 - 2 ^ 31.

Definition INT_MIN : Z := - 2 ^ 31.
Definition INT_MAX : Z := 2 ^ 31 - 1.

(** [a / b] on [int]: truncation towards zero. *)
Definition int_div (a b : Z) : Z := to_int (Z.quot a b).

(** [a * b] on [int]. *)
Definition int_mul (a b : Z) : Z := to_int (a * b).

(** [a / b] and [a * b] on [unsigned int]. *)
Definition uint_div (a b : Z) : Z := a / b.
Definition uint_mul (a b : Z) : Z := to_uint (a * b).

(** Conversion of an [int] to [double]; exact, as |z| < 2^53. *)
Definition double_of_int (z : Z) : float :=
  if z <? 0 then PrimFloat.opp (PrimFloat.of_uint63 (Uint63.of_Z (- z)))
  else PrimFloat.of_uint63 (Uint63.of_Z z).

(** Conversion of a [double] to an integer type discards the fractional
    part. *)
Definition trunc_double (f : float) : Z :=
  match Prim2SF f with
  | S754_finite s m e =>
      let mag := if 0 <=? e then Z.pos m * 2 ^ e else Z.pos m / 2 ^ (- e) in
      if s then - mag else mag
  | _ => 0
  end.

Definition uint_of_double (f : float) : Z := to_uint (trunc_double f).

(** The [double] literals [0.1] and [0.01]: the nearest binary64 values. *)
Definition lit_0_1 : float := 0x1.999999999999ap-4%float.
Definition lit_0_01 : float := 0x1.47ae147ae147bp-7%float.

End CTypes.
Import CTypes.

(** ** Arrays of [char] *)

Definition get (a : list Z) (i : nat) : Z := nth i a 0.

Fixpoint set (a : list Z) (i : nat) (v : Z) : list Z :=
  match a, i with
  | [], _ => []
  | _ :: r, O => v :: r
  | x :: r, S j => x :: set r j v
  end.

Notation "a .[ i ]" := (get a i) (at level 1, left associativity, format "a .[ i ]").
Notation "a .[ i := v ]" := (set a i v) (at level 1, left associativity, format "a .[ i  :=  v ]").

Notation "x ^^ y" := (Z.lxor x y) (at level 40, left associativity).

(** ** Command frames *)

(** The two checksum statements of [turn_on] (source lines 134-135), on
    the array they are applied to. *)
Definition turn_on_checksum (turn_on_msg : list Z) : list Z :=
  let turn_on_msg :=
    turn_on_msg.[7 := to_char (turn_on_msg.[2] ^^ turn_on_msg.[3] ^^ turn_on_msg.[4]
                               ^^ turn_on_msg.[5] ^^ turn_on_msg.[6])] in
  let turn_on_msg :=
    turn_on_msg.[8 := to_char (turn_on_msg.[2] + turn_on_msg.[3] + turn_on_msg.[4]
                               + turn_on_msg.[5] + turn_on_msg.[6] + turn_on_msg.[7])] in
  turn_on_msg.

(** The array [turn_on] hands to [serial->write]. *)
Definition turn_on_msg : list Z :=
  turn_on_checksum [0x00; 0x55; 0x00; 0x00; 0x00; 0x01; 0x54; 0xA9; 0xFF].

(** The array [turn_off] hands to [serial->write]: the literal, untouched. *)
Definition turn_off_msg : list Z :=
  [0x00; 0x55; 0x00; 0x00; 0x01; 0x01; 0x54; 0xA9; 0xFF].

(** [unsigned int hz = target_rpm / 60 * 100;] *)
Definition set_speed_hz (target_rpm : Z) : Z :=
  to_uint (int_mul (int_div target_rpm 60) 100).

(** The array [set_speed] hands to [serial->write]. *)
Definition set_speed_msg (target_rpm : Z) : list Z :=
  let set_speed_msg := [0x00; 0x55; 0x00; 0x00; 0x06; 0x01; 0x54; 0xA9; 0xFF] in
  let hz := set_speed_hz target_rpm in
  let set_speed_msg := set_speed_msg.[3 := to_char (Z.shiftr hz 8)] in
  let set_speed_msg := set_speed_msg.[4 := to_char (Z.land hz 0xFF)] in
  set_speed_msg.

(** ** The protocol's checksum, as the specification words it

    Protocol bytes 2-6 are the payload, protocol byte 7 carries the XOR of
    the payload and protocol byte 8 the sum of payload and XOR, cut to one
    byte. *)

Definition spec_payload (frame : list Z) : list Z :=
  [frame.[1]; frame.[2]; frame.[3]; frame.[4]; frame.[5]].

Definition spec_xor (p : list Z) : Z :=
  p.[0] ^^ p.[1] ^^ p.[2] ^^ p.[3] ^^ p.[4].

Definition spec_add (p : list Z) : Z :=
  (p.[0] + p.[1] + p.[2] + p.[3] + p.[4] + spec_xor p) mod 256.

Definition spec_checksum (p : list Z) : Z * Z := (spec_xor p, spec_add p).

(** The two trailer bytes a frame carries at protocol positions 7 and 8. *)
Definition spec_trailer (frame : list Z) : Z * Z := (frame.[6], frame.[7]).

(** ** The floating type of [delay_time]

    [delay_time] is a member of the Modbus class, declared outside this
    source file with a floating type: binary32 if it is a [float],
    binary64 if it is a [double].  A value carries its type with it, and
    the arithmetic on it is the IEEE arithmetic of that type, rounding to
    nearest even. *)

Inductive c_floating_type : Type :=
| c_float
| c_double.

Definition fp_prec (t : c_floating_type) : Z :=
  match t with c_float => 24 | c_double => 53 end.

Definition fp_emax (t : c_floating_type) : Z :=
  match t with c_float => 128 | c_double => 1024 end.

Record c_floating : Type := mkFloating {
  fp_type : c_floating_type;
  fp_value : spec_float
}.

(** Conversion of a [size_t] value to the floating type. *)
Definition floating_of_size (t : c_floating_type) (n : Z) : spec_float :=
  binary_normalize (fp_prec t) (fp_emax t) n 0 false.

(** The product in the floating type: the exact product, rounded. *)
Definition floating_mul (t : c_floating_type) (x y : spec_float) : spec_float :=
  SFmul (fp_prec t) (fp_emax t) x y.

(** [(int)ceil(x)]: the least integer not below [x], which the floating
    type holds exactly, converted to [int].  For a NaN or an infinity the
    conversion is undefined; 0 stands for it here. *)
Definition int_of_ceil (x : spec_float) : Z :=
  match x with
  | S754_finite s m e =>
      let mant := if s then Z.neg m else Z.pos m in
      to_int (if 0 <=? e then mant * 2 ^ e else - ((- mant) / 2 ^ (- e)))
  | _ => 0
  end.

(** [(int)ceil(n * dt)] for a size [n] and a floating [dt]. *)
Definition ceil_times (n : Z) (dt : c_floating) : Z :=
  int_of_ceil (floating_mul (fp_type dt) (floating_of_size (fp_type dt) n) (fp_value dt)).

(** The [float] nearest to 11000 / 9600: eleven bit times at 9600 baud, in
    milliseconds. *)
Definition byte_time_9600 : c_floating :=
  mkFloating c_float (S754_finite false 9611947 (-23)).

(** ** The machine: controller object, Modbus transport, observable effects *)

(** What the outside world sees the firmware do, in order. *)
Inductive event : Type :=
| DirSet                          (* modbus->dir_output->set()   *)
| DirClear                        (* modbus->dir_output->clear() *)
| Delay (ms : Z)                  (* modbus->delay(ms)           *)
| SerialWrite (buf : list Z)      (* modbus->serial->write(buf, sizeof buf) *)
| SerialReadable (r : bool)       (* modbus->serial->readable(), with its answer *)
| SerialGetc (c : Z)              (* modbus->serial->getc(), with the byte read *)
| Printf (rpm : Z).               (* streams->printf("Current RPM: %d\n", rpm) *)

(** Modelled from the spec: the serial transport, whose class is declared
    outside this source file.  [rx_buffer] holds the bytes that have
    arrived and were not read yet, oldest first; [rx_line] holds the bytes
    the drive sends after that.  A [getc] on an empty buffer waits for the
    next byte of the line; if the line stays silent it waits for ever. *)
Record BufferedSoftSerial : Type := mkSerial {
  rx_buffer : list Z;
  rx_line : list Z
}.

(** Modelled from the spec: the Modbus object behind [modbus->], declared
    outside this source file.  [delay_time] is the time one byte takes on
    the wire, a floating constant supplied by the transport. *)
Record Modbus : Type := mkModbus {
  dir_output : bool;
  serial : BufferedSoftSerial;
  delay_time : c_floating
}.

(** The data member of the controller object the source assigns. *)
Record A131SpindleControl : Type := mkControl {
  spindle_on : bool
}.

Record Machine : Type := mkMachine {
  this : A131SpindleControl;
  modbus : Modbus;
  trace : list event
}.

(** A call either returns, or hangs in a blocking read, or (loops only)
    exhausts the iteration budget it was run with. *)
Inductive result (A : Type) : Type :=
| Done (a : A)
| Blocked
| OutOfFuel.
Arguments Done {A} a.
Arguments Blocked {A}.
Arguments OutOfFuel {A}.

Definition M (A : Type) : Type := Machine -> result A * Machine.

Definition ret {A : Type} (a : A) : M A := fun m => (Done a, m).

Definition bind {A B : Type} (c : M A) (k : A -> M B) : M B :=
  fun m =>
    match c m with
    | (Done a, m') => k a m'
    | (Blocked, m') => (Blocked, m')
    | (OutOfFuel, m') => (OutOfFuel, m')
    end.

Declare Scope prog_scope.
Delimit Scope prog_scope with prog.
Notation "x <- c ;; k" := (bind c (fun x => k))
  (at level 61, c at next level, right associativity) : prog_scope.
Notation "c ;; k" := (bind c (fun _ => k))
  (at level 61, right associativity) : prog_scope.
Open Scope prog_scope.

Definition log (e : event) (m : Machine) : Machine :=
  mkMachine (this m) (modbus m) (trace m ++ [e]).

Definition with_dir (d : bool) (m : Machine) : Machine :=
  mkMachine (this m)
            (mkModbus d (serial (modbus m)) (delay_time (modbus m)))
            (trace m).

Definition with_serial (s : BufferedSoftSerial) (m : Machine) : Machine :=
  mkMachine (this m)
            (mkModbus (dir_output (modbus m)) s (delay_time (modbus m)))
            (trace m).

Definition with_spindle_on (b : bool) (m : Machine) : Machine :=
  mkMachine (mkControl b) (modbus m) (trace m).

(** *** The collaborators *)

(** Modelled from the spec: [assert_direction()], raising the
    transmit-enable line. *)
Definition dir_output_set : M unit :=
  fun m => (Done tt, log DirSet (with_dir true m)).

(** Modelled from the spec: [deassert_direction()]. *)
Definition dir_output_clear : M unit :=
  fun m => (Done tt, log DirClear (with_dir false m)).

(** Modelled from the spec: [delay(milliseconds)], a blocking sleep. *)
Definition modbus_delay (ms : Z) : M unit :=
  fun m => (Done tt, log (Delay ms) m).

(** Modelled from the spec: [write(bytes)] sends the bytes in order. *)
Definition serial_write (buf : list Z) : M unit :=
  fun m => (Done tt, log (SerialWrite buf) m).

(** Modelled from the spec: [readable()], a non-blocking check for at
    least one buffered byte. *)
Definition serial_readable : M bool :=
  fun m =>
    let r := match rx_buffer (serial (modbus m)) with [] => false | _ :: _ => true end in
    (Done r, log (SerialReadable r) m).

(** Modelled from the spec: [read_byte()], a blocking read of exactly one
    byte. *)
Definition serial_getc : M Z :=
  fun m =>
    let s := serial (modbus m) in
    match rx_buffer s with
    | c :: rest => (Done c, log (SerialGetc c) (with_serial (mkSerial rest (rx_line s)) m))
    | [] =>
        match rx_line s with
        | c :: rest => (Done c, log (SerialGetc c) (with_serial (mkSerial [] rest) m))
        | [] => (Blocked, m)
        end
    end.

(** Modelled from the spec: the diagnostic output of the decoded value. *)
Definition streams_printf (rpm : Z) : M unit :=
  fun m => (Done tt, log (Printf rpm) m).

(** [spindle_on = b;] *)
Definition set_spindle_on (b : bool) : M unit :=
  fun m => (Done tt, with_spindle_on b m).

(** [(int)ceil(sizeof(msg) * modbus->delay_time)] *)
Definition tx_delay (msg : list Z) : M Z :=
  fun m => (Done (ceil_times (Z.of_nat (length msg)) (delay_time (modbus m))), m).

(** ** The four operations of [A131SpindleControl] *)

Definition turn_on : M unit :=
  let turn_on_msg := turn_on_msg in
  (* enable transmitter *)
  dir_output_set ;;
  modbus_delay 1 ;;
  (* send the actual message *)
  serial_write turn_on_msg ;;
  (* wait a calculated time for the data to be sent *)
  d <- tx_delay turn_on_msg ;;
  modbus_delay d ;;
  (* disable transmitter *)
  dir_output_clear ;;
  (* wait 50ms *)
  modbus_delay 50 ;;
  set_spindle_on true.

Definition turn_off : M unit :=
  let turn_off_msg := turn_off_msg in
  dir_output_set ;;
  modbus_delay 1 ;;
  serial_write turn_off_msg ;;
  d <- tx_delay turn_off_msg ;;
  modbus_delay d ;;
  dir_output_clear ;;
  modbus_delay 50 ;;
  set_spindle_on false.

Definition set_speed (target_rpm : Z) : M unit :=
  let set_speed_msg := set_speed_msg target_rpm in
  dir_output_set ;;
  modbus_delay 1 ;;
  serial_write set_speed_msg ;;
  d <- tx_delay set_speed_msg ;;
  modbus_delay d ;;
  dir_output_clear ;;
  modbus_delay 50.

(** [while (modbus->serial->readable()) modbus->serial->getc();]
    run for at most [fuel] evaluations of the condition. *)
Fixpoint clear_rx (fuel : nat) : M unit :=
  match fuel with
  | O => fun m => (OutOfFuel, m)
  | S fuel' =>
      r <- serial_readable ;;
      if r then (serial_getc ;; clear_rx fuel') else ret tt
  end.

(** [for (int i = 0; i < 13; i++) speed[i] = modbus->serial->getc();]
    with [n] iterations left to go from index [i]. *)
Fixpoint read_answer (n : nat) (i : nat) (speed : list Z) : M (list Z) :=
  match n with
  | O => ret speed
  | S n' =>
      c <- serial_getc ;;
      read_answer n' (S i) speed.[i := to_char c]
  end.

(** The right-hand side of line 286 on five array cells:
    [(int)a * 100 + (int)b * 10 + (int)c * 1 + (int)d * 0.1 + (int)e * 0.01]
    converted to [unsigned int].  The first three products are added as
    [int]; from the fourth on the arithmetic is [double]. *)
Definition decode_hz (a b c d e : Z) : Z :=
  let i := to_int (to_int (int_mul a 100 + int_mul b 10) + int_mul c 1) in
  uint_of_double
    (double_of_int i + double_of_int d * lit_0_1 + double_of_int e * lit_0_01)%float.

(** [unsigned int hz = ... speed[3] ... speed[7] ...;] *)
Definition report_speed_hz (speed : list Z) : Z :=
  decode_hz speed.[3] speed.[4] speed.[5] speed.[6] speed.[7].

(** [unsigned int rpm = hz / 100 * 60;] *)
Definition rpm_of_hz (hz : Z) : Z := uint_mul (uint_div hz 100) 60.

Definition report_speed (fuel : nat) : M unit :=
  (* clear RX buffer before start *)
  clear_rx fuel ;;
  (* prepare an array for the answer *)
  let speed := [0x00; 0x00; 0x00; 0x00; 0x00; 0x00; 0x00;
                0x00; 0x00; 0x00; 0x00; 0x00; 0x00] in
  (* read the answer into the buffer *)
  speed <- read_answer 13 0 speed ;;
  let hz := report_speed_hz speed in
  let rpm := rpm_of_hz hz in
  (* report the current RPM value *)
  streams_printf rpm.

(** Running a call: the machine it leaves, and what was observed. *)
Definition exec {A : Type} (c : M A) (m : Machine) : Machine := snd (c m).
Definition outcome {A : Type} (c : M A) (m : Machine) : result A := fst (c m).

(** The events a call adds to the trace. *)
Definition effects {A : Type} (c : M A) (m : Machine) : list event :=
  skipn (length (trace m)) (trace (exec c m)).

(** The frames a trace shows on the wire. *)
Fixpoint written (t : list event) : list (list Z) :=
  match t with
  | [] => []
  | SerialWrite buf :: t' => buf :: written t'
  | _ :: t' => written t'
  end.

(** The numbers a trace shows on the kernel stream. *)
Fixpoint printed (t : list event) : list Z :=
  match t with
  | [] => []
  | Printf rpm :: t' => rpm :: printed t'
  | _ :: t' => printed t'
  end.

(** Protocol bytes 1, 2, 6 and 9 of a command frame hold their fixed values. *)
Definition fixed_bytes (frame : list Z) : Prop :=
  frame.[0] = 0x00 /\ frame.[1] = 0x55 /\ frame.[5] = 0x01 /\ frame.[8] = 0xFF.

(** What one transmission looks like from outside, for a frame [msg] and
    the per-byte time [dt]. *)
Definition transmission (msg : list Z) (dt : c_floating) : list event :=
  [DirSet; Delay 1; SerialWrite msg;
   Delay (ceil_times 9 dt); DirClear; Delay 50].

(** The events of emptying a receive buffer holding [buf]. *)
Definition discards (buf : list Z) : list event :=
  flat_map (fun c => [SerialReadable true; SerialGetc c]) buf.

(** The answer array after the bytes [cs] were stored from index [i] on. *)
Fixpoint store_all (i : nat) (cs : list Z) (speed : list Z) : list Z :=
  match cs with
  | [] => speed
  | c :: cs' => store_all (S i) cs' speed.[i := to_char c]
  end.

Definition speed_init : list Z :=
  [0x00; 0x00; 0x00; 0x00; 0x00; 0x00; 0x00; 0x00; 0x00; 0x00; 0x00; 0x00; 0x00].

Definition with_trace (t : list event) (m : Machine) : Machine :=
  mkMachine (this m) (modbus m) t.

(** The machine [report_speed] leaves behind when it starts in [m] with
    [buf] buffered and [line] still to come. *)
Definition after_report (m : Machine) (buf line : list Z) : Machine :=
  let got := firstn 13 line in
  let speed := store_all 0 got speed_init in
  with_trace
    (trace m ++ discards buf ++ [SerialReadable false] ++ map SerialGetc got
       ++ (if (13 <=? length line)%nat
           then [Printf (rpm_of_hz (report_speed_hz speed))] else []))
    (with_serial (mkSerial [] (skipn 13 line)) m).

(** A call that leaves the controller object as it found it, however it
    ends. *)
Definition keeps_this {A : Type} (c : M A) : Prop :=
  forall m, this (exec c m) = this m.

(** ** Sequences of calls, and what a call may touch *)

(** The 16-bit number a frame carries in cells 3 and 4, high byte first. *)
Definition frequency_field (msg : list Z) : Z := 256 * msg.[3] + msg.[4].

(** A call of one of the three senders. *)
Inductive call : Type :=
| TurnOn
| TurnOff
| SetSpeed (target_rpm : Z).

Definition perform (c : call) : M unit :=
  match c with
  | TurnOn => turn_on
  | TurnOff => turn_off
  | SetSpeed target_rpm => set_speed target_rpm
  end.

(** The calls of a list, one after the other. *)
Fixpoint perform_all (cs : list call) : M unit :=
  match cs with
  | [] => ret tt
  | c :: cs' => perform c ;; perform_all cs'
  end.

Definition frame_of (c : call) : list Z :=
  match c with
  | TurnOn => turn_on_msg
  | TurnOff => turn_off_msg
  | SetSpeed target_rpm => set_speed_msg target_rpm
  end.

Definition flag_after (on : bool) (c : call) : bool :=
  match c with
  | TurnOn => true
  | TurnOff => false
  | SetSpeed _ => on
  end.

(** The events of the receiving side: polling, reading, reporting. *)
Definition is_rx_event (e : event) : Prop :=
  match e with
  | SerialReadable _ | SerialGetc _ | Printf _ => True
  | DirSet | DirClear | Delay _ | SerialWrite _ => False
  end.

(** A call that only listens: it leaves the direction line and the
    per-byte time alone and adds nothing but receive-side events, however
    it ends. *)
Definition listens_only {A : Type} (c : M A) : Prop :=
  forall m,
    dir_output (modbus (exec c m)) = dir_output (modbus m)
    /\ delay_time (modbus (exec c m)) = delay_time (modbus m)
    /\ exists es, trace (exec c m) = trace m ++ es /\ Forall is_rx_event es.

(** The values one decimal digit can take. *)
Definition digit (z : Z) : Prop := 0 <= z <= 9.

(** The truncation of [trunc_double], with the power of two applied by
    shifting. *)
Definition trunc_by_shift (f : float) : Z :=
  match Prim2SF f with
  | S754_finite s m e =>
      let mag := if 0 <=? e then Z.shiftl (Z.pos m) e else Z.shiftr (Z.pos m) (- e) in
      if s then - mag else mag
  | _ => 0
  end.

(** The [double] sum of line 286 on an integer part [i] and two cells
    [d], [e] truncates back to [i]. *)
Definition drops_fraction (i d e : Z) : bool :=
  trunc_by_shift
    (double_of_int i + double_of_int d * lit_0_1 + double_of_int e * lit_0_01)%float
  =? i.

(** * Properties *)

(** ** Arithmetic helpers *)

Lemma to_char_range (z : Z) : 0 <= to_char z < 256.
Proof. unfold to_char. apply Z.mod_pos_bound. lia. Qed.

Lemma to_char_small (z : Z) : 0 <= z < 256 -> to_char z = z.
Proof. intros H. unfold to_char. apply Z.mod_small. exact H. Qed.

Lemma to_int_small (z : Z) : INT_MIN <= z <= INT_MAX -> to_int z = z.
Proof.
  unfold INT_MIN, INT_MAX, to_int. intros H.
  rewrite Z.mod_small; lia.
Qed.

Lemma to_uint_small (z : Z) : 0 <= z < 2 ^ 32 -> to_uint z = z.
Proof. intros H. unfold to_uint. apply Z.mod_small. exact H. Qed.

Lemma to_uint_to_int (z : Z) : to_uint (to_int z) = to_uint z.
Proof.
  unfold to_uint, to_int.
  rewrite Zminus_mod, Z.mod_mod by lia.
  rewrite <- Zminus_mod.
  replace (z + 2 ^ 31 - 2 ^ 31) with z by lia.
  reflexivity.
Qed.

(** For a non-negative [int] argument the wrap-around never bites:
    the frequency is the truncated quotient times one hundred. *)
Lemma set_speed_hz_nonneg (rpm : Z) :
  0 <= rpm <= INT_MAX -> set_speed_hz rpm = rpm / 60 * 100.
Proof.
  unfold INT_MAX. intros H.
  unfold set_speed_hz, int_mul, int_div.
  rewrite to_uint_to_int.
  rewrite Z.quot_div_nonneg by lia.
  assert (Hq : 0 <= rpm / 60 <= 35791394).
  { split; [apply Z.div_pos; lia |].
    apply Z.lt_succ_r. apply Z.div_lt_upper_bound; lia. }
  rewrite (to_int_small (rpm / 60)) by (unfold INT_MIN, INT_MAX; lia).
  apply to_uint_small. lia.
Qed.

Lemma set_speed_msg_cells (rpm : Z) :
  set_speed_msg rpm =
  [0x00; 0x55; 0x00; to_char (Z.shiftr (set_speed_hz rpm) 8);
   to_char (Z.land (set_speed_hz rpm) 0xFF); 0x01; 0x54; 0xA9; 0xFF].
Proof. reflexivity. Qed.

Lemma byte_hi (hz : Z) : to_char (Z.shiftr hz 8) = (hz / 256) mod 256.
Proof. unfold to_char. rewrite Z.shiftr_div_pow2 by lia. reflexivity. Qed.

Lemma byte_lo (hz : Z) : to_char (Z.land hz 0xFF) = hz mod 256.
Proof.
  change 0xFF with (Z.ones 8).
  rewrite Z.land_ones by lia.
  unfold to_char. change (2 ^ 8) with 256.
  apply Z.mod_mod. lia.
Qed.

(** ** Traces of the three senders *)

Lemma skipn_length_app {A : Type} (l r : list A) :
  skipn (length l) (l ++ r) = r.
Proof. induction l as [|x l IH]; simpl; [reflexivity | exact IH]. Qed.

Lemma effects_of_trace {A : Type} (c : M A) (m : Machine) (es : list event) :
  trace (exec c m) = trace m ++ es -> effects c m = es.
Proof. intros H. unfold effects. rewrite H. apply skipn_length_app. Qed.

Ltac run_sender :=
  cbv [exec outcome turn_on turn_off set_speed bind ret tx_delay
       dir_output_set dir_output_clear modbus_delay serial_write
       set_spindle_on log with_dir with_serial with_spindle_on
       fst snd trace modbus this serial dir_output delay_time];
  repeat rewrite <- app_assoc; cbn [app].

Lemma length_turn_on_msg : length turn_on_msg = 9%nat.
Proof. reflexivity. Qed.

Lemma length_turn_off_msg : length turn_off_msg = 9%nat.
Proof. reflexivity. Qed.

Lemma length_set_speed_msg (rpm : Z) : length (set_speed_msg rpm) = 9%nat.
Proof. reflexivity. Qed.

Lemma turn_on_trace (m : Machine) :
  trace (exec turn_on m)
  = trace m ++ transmission turn_on_msg (delay_time (modbus m)).
Proof. run_sender. rewrite length_turn_on_msg. reflexivity. Qed.

Lemma turn_off_trace (m : Machine) :
  trace (exec turn_off m)
  = trace m ++ transmission turn_off_msg (delay_time (modbus m)).
Proof. run_sender. rewrite length_turn_off_msg. reflexivity. Qed.

Lemma set_speed_trace (rpm : Z) (m : Machine) :
  trace (exec (set_speed rpm) m)
  = trace m ++ transmission (set_speed_msg rpm) (delay_time (modbus m)).
Proof. run_sender. rewrite length_set_speed_msg. reflexivity. Qed.

Lemma turn_on_written (m : Machine) :
  written (effects turn_on m) = [turn_on_msg].
Proof. rewrite (effects_of_trace _ _ _ (turn_on_trace m)). reflexivity. Qed.

Lemma turn_off_written (m : Machine) :
  written (effects turn_off m) = [turn_off_msg].
Proof. rewrite (effects_of_trace _ _ _ (turn_off_trace m)). reflexivity. Qed.

Lemma set_speed_written (rpm : Z) (m : Machine) :
  written (effects (set_speed rpm) m) = [set_speed_msg rpm].
Proof. rewrite (effects_of_trace _ _ _ (set_speed_trace rpm m)). reflexivity. Qed.

(** ** The two loops of [report_speed] *)

Lemma bind_done {A B : Type} (c : M A) (k : A -> M B) (m m' : Machine) (a : A) :
  c m = (Done a, m') -> bind c k m = k a m'.
Proof. intros H. unfold bind. rewrite H. reflexivity. Qed.

Lemma bind_blocked {A B : Type} (c : M A) (k : A -> M B) (m m' : Machine) :
  c m = (Blocked, m') -> bind c k m = (Blocked, m').
Proof. intros H. unfold bind. rewrite H. reflexivity. Qed.

Lemma clear_rx_spec (buf : list Z) :
  forall (fuel : nat) (m : Machine),
    rx_buffer (serial (modbus m)) = buf ->
    (length buf < fuel)%nat ->
    clear_rx fuel m
    = (Done tt,
       with_trace (trace m ++ discards buf ++ [SerialReadable false])
         (with_serial (mkSerial [] (rx_line (serial (modbus m)))) m)).
Proof.
  induction buf as [|c buf IH]; intros fuel m Hbuf Hfuel;
    destruct fuel as [|fuel]; try (simpl in Hfuel; lia);
    destruct m as [ctl [dir [b line] dt] tr]; simpl in Hbuf; subst b.
  - reflexivity.
  - cbn [clear_rx].
    rewrite (bind_done _ _ _ (log (SerialReadable true)
                                (mkMachine ctl (mkModbus dir (mkSerial (c :: buf) line) dt) tr)) true)
      by reflexivity.
    rewrite (bind_done _ _ _
               (mkMachine ctl (mkModbus dir (mkSerial buf line) dt)
                  ((tr ++ [SerialReadable true]) ++ [SerialGetc c])) c)
      by reflexivity.
    rewrite IH by (simpl in *; try reflexivity; lia).
    unfold with_trace, with_serial; cbn [this modbus trace serial rx_line dir_output delay_time].
    repeat rewrite <- app_assoc. reflexivity.
Qed.

Lemma read_answer_spec (n : nat) :
  forall (line : list Z) (i : nat) (speed : list Z) (m : Machine),
    rx_buffer (serial (modbus m)) = [] ->
    rx_line (serial (modbus m)) = line ->
    read_answer n i speed m
    = ((if (n <=? length line)%nat
        then Done (store_all i (firstn n line) speed) else Blocked),
       with_trace (trace m ++ map SerialGetc (firstn n line))
         (with_serial (mkSerial [] (skipn n line)) m)).
Proof.
  induction n as [|n IH]; intros line i speed m Hbuf Hline;
    destruct m as [ctl [dir [b l] dt] tr]; simpl in Hbuf, Hline; subst b l.
  - cbn. unfold ret, with_trace, with_serial. cbn. rewrite app_nil_r. reflexivity.
  - destruct line as [|c rest].
    + cbn. unfold with_trace, with_serial. cbn. rewrite app_nil_r. reflexivity.
    + cbn [read_answer].
      rewrite (bind_done _ _ _
                 (mkMachine ctl (mkModbus dir (mkSerial [] rest) dt)
                    (tr ++ [SerialGetc c])) c)
        by reflexivity.
      rewrite (IH rest) by reflexivity.
      unfold with_trace, with_serial.
      cbn [this modbus trace serial rx_line dir_output delay_time
           firstn skipn map store_all length Nat.leb].
      rewrite <- app_assoc. reflexivity.
Qed.

Lemma report_speed_spec (fuel : nat) (m : Machine) :
  (length (rx_buffer (serial (modbus m))) < fuel)%nat ->
  report_speed fuel m
  = ((if (13 <=? length (rx_line (serial (modbus m))))%nat
      then Done tt else Blocked),
     after_report m (rx_buffer (serial (modbus m))) (rx_line (serial (modbus m)))).
Proof.
  intros Hfuel. unfold report_speed.
  rewrite (bind_done _ _ _ _ tt (clear_rx_spec _ fuel m eq_refl Hfuel)).
  set (m1 := with_trace _ _).
  pose proof (read_answer_spec 13 (rx_line (serial (modbus m))) 0 speed_init m1
                eq_refl eq_refl) as Hread.
  fold speed_init.
  unfold after_report.
  destruct (13 <=? length (rx_line (serial (modbus m))))%nat.
  - rewrite (bind_done _ _ _ _ _ Hread).
    subst m1. unfold streams_printf, log, with_trace, with_serial.
    cbn [this modbus trace serial rx_line dir_output delay_time].
    repeat rewrite <- app_assoc. reflexivity.
  - rewrite (bind_blocked _ _ _ _ Hread).
    subst m1. unfold with_trace, with_serial.
    cbn [this modbus trace serial rx_line dir_output delay_time].
    repeat rewrite <- app_assoc. rewrite app_nil_r. reflexivity.
Qed.

(** ** What leaves the controller object alone *)

Lemma keeps_ret {A : Type} (a : A) : keeps_this (ret a).
Proof. intros m. reflexivity. Qed.

Lemma keeps_bind {A B : Type} (c : M A) (k : A -> M B) :
  keeps_this c -> (forall a, keeps_this (k a)) -> keeps_this (bind c k).
Proof.
  intros Hc Hk m. unfold exec, bind.
  specialize (Hc m). unfold exec in Hc.
  destruct (c m) as [[a| |] m']; simpl in *; try exact Hc.
  rewrite <- Hc. apply (Hk a m').
Qed.

Lemma keeps_serial_readable : keeps_this serial_readable.
Proof. intros m. reflexivity. Qed.

Lemma keeps_serial_getc : keeps_this serial_getc.
Proof.
  intros [ctl [dir [[|c buf] [|c' line]] dt] tr]; reflexivity.
Qed.

Lemma keeps_serial_write (buf : list Z) : keeps_this (serial_write buf).
Proof. intros m. reflexivity. Qed.

Lemma keeps_modbus_delay (ms : Z) : keeps_this (modbus_delay ms).
Proof. intros m. reflexivity. Qed.

Lemma keeps_tx_delay (msg : list Z) : keeps_this (tx_delay msg).
Proof. intros m. reflexivity. Qed.

Lemma keeps_dir_output_set : keeps_this dir_output_set.
Proof. intros m. reflexivity. Qed.

Lemma keeps_dir_output_clear : keeps_this dir_output_clear.
Proof. intros m. reflexivity. Qed.

Lemma keeps_streams_printf (rpm : Z) : keeps_this (streams_printf rpm).
Proof. intros m. reflexivity. Qed.

Create HintDb frame.
#[local] Hint Resolve keeps_ret keeps_serial_readable keeps_serial_getc
  keeps_serial_write keeps_modbus_delay keeps_tx_delay keeps_dir_output_set
  keeps_dir_output_clear keeps_streams_printf : frame.

Ltac frame_step := repeat (apply keeps_bind; [auto with frame | intros ?]).

Lemma keeps_clear_rx (fuel : nat) : keeps_this (clear_rx fuel).
Proof.
  induction fuel as [|fuel IH].
  - intros m. reflexivity.
  - cbn [clear_rx]. apply keeps_bind; [auto with frame|].
    intros [|]; [|auto with frame].
    apply keeps_bind; [auto with frame | intros _; exact IH].
Qed.

Lemma keeps_read_answer (n : nat) :
  forall i speed, keeps_this (read_answer n i speed).
Proof.
  induction n as [|n IH]; intros i speed; cbn [read_answer].
  - auto with frame.
  - apply keeps_bind; [auto with frame | intros c; apply IH].
Qed.

Lemma keeps_report_speed (fuel : nat) : keeps_this (report_speed fuel).
Proof.
  unfold report_speed.
  apply keeps_bind; [apply keeps_clear_rx | intros _].
  apply keeps_bind; [apply keeps_read_answer | intros speed].
  auto with frame.
Qed.

Lemma keeps_set_speed (rpm : Z) : keeps_this (set_speed rpm).
Proof. unfold set_speed. frame_step. auto with frame. Qed.

(** ** Reading the trace of [report_speed] *)

Lemma printed_app (t u : list event) : printed (t ++ u) = printed t ++ printed u.
Proof.
  induction t as [|e t IH]; [reflexivity|].
  destruct e; simpl; rewrite IH; reflexivity.
Qed.

Lemma printed_discards (buf : list Z) : printed (discards buf) = [].
Proof. induction buf as [|c buf IH]; [reflexivity | exact IH]. Qed.

Lemma printed_getc (cs : list Z) : printed (map SerialGetc cs) = [].
Proof. induction cs as [|c cs IH]; [reflexivity | exact IH]. Qed.

Lemma report_speed_effects (fuel : nat) (m : Machine) :
  (length (rx_buffer (serial (modbus m))) < fuel)%nat ->
  effects (report_speed fuel) m
  = discards (rx_buffer (serial (modbus m)))
      ++ [SerialReadable false]
      ++ map SerialGetc (firstn 13 (rx_line (serial (modbus m))))
      ++ (if (13 <=? length (rx_line (serial (modbus m))))%nat
          then [Printf (rpm_of_hz (report_speed_hz
                  (store_all 0 (firstn 13 (rx_line (serial (modbus m)))) speed_init)))]
          else []).
Proof.
  intros Hfuel. apply effects_of_trace.
  unfold exec. rewrite (report_speed_spec fuel m Hfuel). reflexivity.
Qed.

(** ** Case analysis over one byte *)

Lemma byte_cases (P : Z -> bool) :
  forallb P (map Z.of_nat (seq 0 256)) = true ->
  forall z, 0 <= z < 256 -> P z = true.
Proof.
  intros Hall z Hz.
  rewrite forallb_forall in Hall. apply Hall.
  rewrite <- (Z2Nat.id z) by lia.
  apply in_map, in_seq. lia.
Qed.

Lemma rpm_of_hz_uint (hz : Z) :
  0 <= hz < 2 ^ 32 -> rpm_of_hz hz = hz / 100 * 60.
Proof.
  intros H. unfold rpm_of_hz, uint_mul, uint_div.
  apply to_uint_small.
  assert (0 <= hz / 100) by (apply Z.div_pos; lia).
  assert (hz / 100 * 100 <= hz) by (rewrite Z.mul_comm; apply Z.mul_div_le; lia).
  lia.
Qed.

(** ** What the checksum statements of [turn_on] compute *)

(** On any nine-cell array of bytes the two statements leave cells 0..6
    alone, put the XOR of cells 2..6 into cell 7 and the byte-wide sum of
    cells 2..6 and that XOR into cell 8. *)
Lemma turn_on_checksum_cells (b0 b1 b2 b3 b4 b5 b6 b7 b8 : Z) :
  0 <= b2 < 256 -> 0 <= b3 < 256 -> 0 <= b4 < 256 ->
  0 <= b5 < 256 -> 0 <= b6 < 256 ->
  turn_on_checksum [b0; b1; b2; b3; b4; b5; b6; b7; b8]
  = [b0; b1; b2; b3; b4; b5; b6;
     b2 ^^ b3 ^^ b4 ^^ b5 ^^ b6;
     (b2 + b3 + b4 + b5 + b6 + (b2 ^^ b3 ^^ b4 ^^ b5 ^^ b6)) mod 256].
Proof.
  intros H2 H3 H4 H5 H6.
  unfold turn_on_checksum. cbn [get set nth].
  assert (Hx : 0 <= b2 ^^ b3 ^^ b4 ^^ b5 ^^ b6 < 256).
  { assert (Hb : forall x y, 0 <= x < 2 ^ 8 -> 0 <= y < 2 ^ 8 -> 0 <= x ^^ y < 2 ^ 8).
    { intros x y Hx Hy. split.
      - apply Z.lxor_nonneg. lia.
      - destruct (Z.eq_dec (x ^^ y) 0) as [E|E]; [rewrite E; lia|].
        apply Z.log2_lt_pow2.
        + assert (0 <= x ^^ y) by (apply Z.lxor_nonneg; lia). lia.
        + eapply Z.le_lt_trans; [apply Z.log2_lxor; lia|].
          destruct (Z.eq_dec x 0) as [Ex|Ex]; destruct (Z.eq_dec y 0) as [Ey|Ey];
            subst; cbn [Z.log2 Z.max]; try lia.
          * rewrite Z.max_r by (apply Z.log2_nonneg).
            apply Z.log2_lt_pow2; lia.
          * rewrite Z.max_l by (apply Z.log2_nonneg).
            apply Z.log2_lt_pow2; lia.
          * apply Z.max_lub_lt; apply Z.log2_lt_pow2; lia. }
    change 256 with (2 ^ 8) in *. auto. }
  rewrite (to_char_small _ Hx).
  reflexivity.
Qed.

(** ** The claims *)

(** C1 (defect in the code).  The claim: [turn_on] transmits the nine bytes
    00 55 00 00 00 01 54 A9 FF.  The code starts from exactly that literal
    but then stores a checksum into array cells 7 and 8, which are protocol
    bytes 8 and 9: on the wire go 00 55 00 00 00 01 54 55 AA. *)
Theorem turn_on_transmits_54_55_AA :
  forall m : Machine,
    written (effects turn_on m)
    = [[0x00; 0x55; 0x00; 0x00; 0x00; 0x01; 0x54; 0x55; 0xAA]]
    /\ written (effects turn_on m)
       <> [[0x00; 0x55; 0x00; 0x00; 0x00; 0x01; 0x54; 0xA9; 0xFF]].
Proof.
  intros m. rewrite turn_on_written. split.
  - reflexivity.
  - vm_compute. discriminate.
Qed.

(** C2 (defect in the code).  The claim: the trailer of the frames of
    [turn_off] and [set_speed] is the checksum of their payload.  Both
    functions send the literal trailer 54 A9 untouched.  For [turn_off]
    the payload's checksum is 55 AC; for [set_speed] the trailer differs
    from the payload's checksum whatever the speed asked for. *)
Theorem turn_off_and_set_speed_send_stale_trailer :
  forall (m : Machine) (target_rpm : Z),
    written (effects turn_off m) = [turn_off_msg]
    /\ spec_trailer turn_off_msg = (0x54, 0xA9)
    /\ spec_checksum (spec_payload turn_off_msg) = (0x55, 0xAC)
    /\ written (effects (set_speed target_rpm) m) = [set_speed_msg target_rpm]
    /\ spec_trailer (set_speed_msg target_rpm) = (0x54, 0xA9)
    /\ spec_trailer (set_speed_msg target_rpm)
       <> spec_checksum (spec_payload (set_speed_msg target_rpm)).
Proof.
  intros m rpm.
  split; [apply turn_off_written|].
  split; [reflexivity|].
  split; [reflexivity|].
  split; [apply set_speed_written|].
  split; [reflexivity|].
  rewrite set_speed_msg_cells.
  set (hi := to_char (Z.shiftr (set_speed_hz rpm) 8)).
  set (lo := to_char (Z.land (set_speed_hz rpm) 0xFF)).
  unfold spec_trailer, spec_checksum, spec_add, spec_xor, spec_payload.
  cbn [get nth].
  intros E.
  pose proof (f_equal fst E) as Ex. pose proof (f_equal snd E) as Ea.
  cbn [fst snd] in Ex, Ea. clear E.
  assert (Hhl : hi ^^ lo = 0).
  { symmetry in Ex.
    apply (f_equal (fun x => x ^^ 1)) in Ex.
    rewrite Z.lxor_assoc in Ex. change (1 ^^ 1) with 0 in Ex.
    rewrite !Z.lxor_0_r, Z.lxor_assoc in Ex.
    apply (f_equal (fun x => 85 ^^ x)) in Ex.
    rewrite <- Z.lxor_assoc, Z.lxor_nilpotent, Z.lxor_0_l in Ex.
    exact Ex. }
  rewrite Z.lxor_0_r, (Z.lxor_assoc 85 hi lo), Hhl in Ea.
  apply Z.lxor_eq in Hhl. rewrite Hhl in Ea.
  change (85 ^^ 0 ^^ 1) with 84 in Ea.
  apply (f_equal (fun x => x mod 2)) in Ea.
  rewrite Z.mod_mod_divide in Ea by (exists 128; reflexivity).
  replace (85 + 0 + lo + lo + 1 + 84) with ((85 + lo) * 2) in Ea by lia.
  rewrite Z.mod_mul in Ea by lia.
  discriminate Ea.
Qed.

(** C3 (defect in the code).  The claim: the XOR of protocol bytes 2-6 goes
    to protocol position 7 and the sum to position 8.  The statements of
    [turn_on] index the array with the protocol's 1-based numbers: they
    read cells 2..6 (protocol bytes 3-7) and write cells 7 and 8 (protocol
    positions 8 and 9).  So the frame of [turn_on] carries 54 55 at
    positions 7 and 8, where the payload's checksum is 54 AA, and the
    checksum the code did compute sits one position further on. *)
Theorem turn_on_checksum_is_shifted_by_one :
  spec_trailer turn_on_msg = (0x54, 0x55)
  /\ spec_checksum (spec_payload turn_on_msg) = (0x54, 0xAA)
  /\ spec_trailer turn_on_msg <> spec_checksum (spec_payload turn_on_msg)
  /\ (turn_on_msg.[7], turn_on_msg.[8])
     = spec_checksum [turn_on_msg.[2]; turn_on_msg.[3]; turn_on_msg.[4];
                      turn_on_msg.[5]; turn_on_msg.[6]].
Proof.
  repeat split; try reflexivity.
  vm_compute. discriminate.
Qed.

(** C4 (defect in the code).  The claim: protocol bytes 1, 2, 6, 9 of every
    transmitted frame are 00, 55, 01, FF.  That holds for [turn_off] and
    for [set_speed] at every speed; [turn_on] overwrites protocol byte 9
    (array cell 8) with its sum byte and sends AA there. *)
Theorem fixed_bytes_hold_except_turn_on_terminator :
  forall (m : Machine) (target_rpm : Z),
    written (effects turn_on m) = [turn_on_msg]
    /\ turn_on_msg.[0] = 0x00 /\ turn_on_msg.[1] = 0x55 /\ turn_on_msg.[5] = 0x01
    /\ turn_on_msg.[8] = 0xAA
    /\ ~ fixed_bytes turn_on_msg
    /\ written (effects turn_off m) = [turn_off_msg]
    /\ fixed_bytes turn_off_msg
    /\ written (effects (set_speed target_rpm) m) = [set_speed_msg target_rpm]
    /\ fixed_bytes (set_speed_msg target_rpm).
Proof.
  intros m rpm.
  split; [apply turn_on_written|].
  do 4 (split; [reflexivity|]).
  split.
  { intros (_ & _ & _ & H). vm_compute in H. discriminate. }
  split; [apply turn_off_written|].
  split; [repeat split|].
  split; [apply set_speed_written|].
  rewrite set_speed_msg_cells. repeat split.
Qed.

(** C5.  [set_speed] divides the speed by 60 first and multiplies by 100
    afterwards, and stores the result high byte first in array cells 3 and
    4: cell 3 holds bits 15..8, cell 4 bits 7..0, which is all of the value
    when it fits 16 bits.  For 3000 rpm the value is 5000 = 0x1388 and the
    cells hold 13 and 88.  The order shows at 90 rpm: 100, where
    multiplying first would give 150. *)
Theorem set_speed_frequency_cells :
  forall (m : Machine) (target_rpm : Z),
    0 <= target_rpm <= INT_MAX ->
    let hz := set_speed_hz target_rpm in
    let msg := set_speed_msg target_rpm in
    hz = target_rpm / 60 * 100
    /\ written (effects (set_speed target_rpm) m) = [msg]
    /\ msg.[3] = (hz / 256) mod 256
    /\ msg.[4] = hz mod 256
    /\ (hz < 65536 -> 256 * msg.[3] + msg.[4] = hz)
    /\ set_speed_hz 3000 = 5000
    /\ 5000 = 0x1388
    /\ (set_speed_msg 3000).[3] = 0x13
    /\ (set_speed_msg 3000).[4] = 0x88
    /\ set_speed_hz 90 = 100
    /\ 90 * 100 / 60 = 150.
Proof.
  intros m rpm Hrpm hz msg.
  assert (Hhz : hz = rpm / 60 * 100) by (apply set_speed_hz_nonneg; exact Hrpm).
  assert (H3 : msg.[3] = (hz / 256) mod 256).
  { subst msg. rewrite set_speed_msg_cells. cbn [get nth]. apply byte_hi. }
  assert (H4 : msg.[4] = hz mod 256).
  { subst msg. rewrite set_speed_msg_cells. cbn [get nth]. apply byte_lo. }
  split; [exact Hhz|].
  split; [apply set_speed_written|].
  split; [exact H3|].
  split; [exact H4|].
  split.
  { intros Hsmall. rewrite H3, H4.
    assert (0 <= hz).
    { rewrite Hhz. apply Z.mul_nonneg_nonneg; [apply Z.div_pos|]; lia. }
    assert (0 <= hz / 256 < 256).
    { split; [apply Z.div_pos; lia | apply Z.div_lt_upper_bound; lia]. }
    rewrite (Z.mod_small (hz / 256)) by lia.
    rewrite (Z.div_mod hz 256) at 3 by lia. reflexivity. }
  repeat split.
Qed.

Lemma set_speed_frequency_cells_witness :
  0 <= 3000 <= INT_MAX
  /\ set_speed_hz 3000 = 3000 / 60 * 100
  /\ (set_speed_msg 3000).[3] = (set_speed_hz 3000 / 256) mod 256.
Proof.
  assert (H : 0 <= 3000 <= INT_MAX) by (unfold INT_MAX; lia).
  split; [exact H|].
  pose proof (set_speed_frequency_cells
                (mkMachine (mkControl false)
                   (mkModbus false (mkSerial [] []) byte_time_9600) []) 3000 H) as T.
  cbv zeta in T.
  split; [exact (proj1 T) | exact (proj1 (proj2 (proj2 T)))].
Defined.

(** ** Status frames *)

(** Digits 0,2,5,0 in cells 3..6: line 286 adds the hundredths of the
    byte in cell 7 to 25. *)
Lemma decode_0250_hz (d6 : Z) :
  decode_hz 0 2 5 0 (to_char d6) = 25 + to_char d6 / 100.
Proof.
  apply Z.eqb_eq.
  apply (byte_cases (fun d => decode_hz 0 2 5 0 d =? 25 + d / 100)).
  - vm_compute. reflexivity.
  - apply to_char_range.
Qed.

(** C6 (defect in the code).  The claim: of a status frame with the digits
    D1..D5 = 0 0 2 5 0 the weighting 100, 10, 1, 0.1, 0.01 is taken over
    D1..D5 and 0 rpm is reported.  The protocol table puts D1..D5 at
    protocol bytes 3..7, which are array cells 2..6; line 286 reads cells
    3..7, which hold D2..D5 and the indicator byte D6.  In the run on such
    a frame the answer array holds the digits in cells 2..6, the value
    decoded is 25 plus the hundreds of D6 (25, 26 or 27), where the
    weighting over D1..D5 gives 2 and the claim names 250.  The report is
    the 0 rpm of the claim. *)
Theorem report_speed_decodes_one_cell_late :
  forall (fuel : nat) (m : Machine) (b0 b1 d6 b8 b9 b10 b11 b12 : Z) (rest : list Z),
    (length (rx_buffer (serial (modbus m))) < fuel)%nat ->
    rx_line (serial (modbus m))
    = [b0; b1; 0; 0; 2; 5; 0; d6; b8; b9; b10; b11; b12] ++ rest ->
    let speed := store_all 0 (firstn 13 (rx_line (serial (modbus m)))) speed_init in
    (speed.[2], speed.[3], speed.[4], speed.[5], speed.[6]) = (0, 0, 2, 5, 0)
    /\ report_speed_hz speed = 25 + to_char d6 / 100
    /\ 25 <= report_speed_hz speed <= 27
    /\ report_speed_hz speed <> 250
    /\ decode_hz speed.[2] speed.[3] speed.[4] speed.[5] speed.[6] = 2
    /\ outcome (report_speed fuel) m = Done tt
    /\ effects (report_speed fuel) m
       = discards (rx_buffer (serial (modbus m)))
           ++ [SerialReadable false]
           ++ map SerialGetc [b0; b1; 0; 0; 2; 5; 0; d6; b8; b9; b10; b11; b12]
           ++ [Printf (rpm_of_hz (report_speed_hz speed))]
    /\ printed (effects (report_speed fuel) m) = [0].
Proof.
  intros fuel m b0 b1 d6 b8 b9 b10 b11 b12 rest Hfuel Hline speed.
  assert (Hhz : report_speed_hz speed = 25 + to_char d6 / 100).
  { subst speed. rewrite Hline.
    cbn [app firstn store_all speed_init set].
    unfold report_speed_hz. cbn [get nth].
    change (to_char 0) with 0. change (to_char 2) with 2. change (to_char 5) with 5.
    apply decode_0250_hz. }
  assert (Hd6 : 0 <= to_char d6 / 100 <= 2).
  { pose proof (to_char_range d6) as Hr. split.
    - apply Z.div_pos; lia.
    - apply Z.lt_succ_r. apply Z.div_lt_upper_bound; lia. }
  split.
  { subst speed. rewrite Hline. reflexivity. }
  split; [exact Hhz|].
  split; [lia|].
  split; [lia|].
  split.
  { subst speed. rewrite Hline. vm_compute. reflexivity. }
  split.
  { unfold outcome. rewrite (report_speed_spec fuel m Hfuel), Hline. reflexivity. }
  split.
  { rewrite (report_speed_effects fuel m Hfuel). subst speed.
    rewrite Hline. reflexivity. }
  rewrite (report_speed_effects fuel m Hfuel).
  rewrite !printed_app, printed_discards, printed_getc.
  fold speed. rewrite Hline.
  cbn [app length Nat.leb printed].
  rewrite Hhz, rpm_of_hz_uint by lia.
  replace ((25 + to_char d6 / 100) / 100) with 0; [reflexivity|].
  symmetry. apply Z.div_small. lia.
Qed.

Lemma report_speed_decodes_one_cell_late_witness :
  let m := mkMachine (mkControl true)
             (mkModbus false
                (mkSerial [0x01; 0xB0; 0xFF]
                   [0x00; 0x55; 0; 0; 2; 5; 0; 0x02; 0x01; 0x00; 0x51; 0xB0; 0xFF])
                byte_time_9600) [] in
  let speed := store_all 0 (firstn 13 (rx_line (serial (modbus m)))) speed_init in
  report_speed_hz speed = 25 + to_char 0x02 / 100
  /\ decode_hz speed.[2] speed.[3] speed.[4] speed.[5] speed.[6] = 2
  /\ printed (effects (report_speed 4) m) = [0].
Proof.
  cbv zeta.
  pose proof (report_speed_decodes_one_cell_late 4
                (mkMachine (mkControl true)
                   (mkModbus false
                      (mkSerial [0x01; 0xB0; 0xFF]
                         [0x00; 0x55; 0; 0; 2; 5; 0; 0x02; 0x01; 0x00; 0x51; 0xB0; 0xFF])
                      byte_time_9600) [])
                0x00 0x55 0x02 0x01 0x00 0x51 0xB0 0xFF []
                ltac:(simpl; lia) eq_refl) as T.
  cbv zeta in T.
  split; [exact (proj1 (proj2 T))|].
  split; [exact (proj1 (proj2 (proj2 (proj2 (proj2 T)))))|].
  exact (proj2 (proj2 (proj2 (proj2 (proj2 (proj2 (proj2 T))))))).
Defined.

(** C7.  [report_speed] first empties the receive buffer: every buffered
    byte is fetched and dropped after a [readable()] that answered true,
    then [readable()] answers false, and only then come the blocking reads
    of the status frame, which take the next bytes of the line (13 of them,
    or as many as the drive sends before it falls silent).  Nothing but
    the report follows. *)
Theorem report_speed_drains_before_it_reads :
  forall (fuel : nat) (m : Machine),
    let buf := rx_buffer (serial (modbus m)) in
    let line := rx_line (serial (modbus m)) in
    (length buf < fuel)%nat ->
    effects (report_speed fuel) m
    = discards buf
        ++ [SerialReadable false]
        ++ map SerialGetc (firstn 13 line)
        ++ (if (13 <=? length line)%nat
            then [Printf (rpm_of_hz (report_speed_hz
                                       (store_all 0 (firstn 13 line) speed_init)))]
            else [])
    /\ outcome (report_speed fuel) m
       = (if (13 <=? length line)%nat then Done tt else Blocked)
    /\ rx_buffer (serial (modbus (exec (report_speed fuel) m))) = []
    /\ rx_line (serial (modbus (exec (report_speed fuel) m))) = skipn 13 line.
Proof.
  intros fuel m buf line Hfuel.
  split; [exact (report_speed_effects fuel m Hfuel)|].
  unfold outcome, exec. rewrite (report_speed_spec fuel m Hfuel).
  repeat split.
Qed.

Lemma report_speed_drains_before_it_reads_witness :
  effects (report_speed 3)
    (mkMachine (mkControl false)
       (mkModbus false
          (mkSerial [0xB0; 0xFF]
             [0x00; 0x55; 0; 0; 2; 5; 0; 0x02; 0x01; 0x00; 0x51; 0xB0; 0xFF; 0x00])
          byte_time_9600) [])
  = [SerialReadable true; SerialGetc 0xB0; SerialReadable true; SerialGetc 0xFF;
     SerialReadable false;
     SerialGetc 0x00; SerialGetc 0x55; SerialGetc 0; SerialGetc 0; SerialGetc 2;
     SerialGetc 5; SerialGetc 0; SerialGetc 0x02; SerialGetc 0x01; SerialGetc 0x00;
     SerialGetc 0x51; SerialGetc 0xB0; SerialGetc 0xFF;
     Printf 0].
Proof.
  pose proof (report_speed_drains_before_it_reads 3
                (mkMachine (mkControl false)
                   (mkModbus false
                      (mkSerial [0xB0; 0xFF]
                         [0x00; 0x55; 0; 0; 2; 5; 0; 0x02; 0x01; 0x00; 0x51; 0xB0; 0xFF; 0x00])
                      byte_time_9600) [])
                ltac:(simpl; lia)) as T.
  exact (proj1 T).
Defined.

(** What the delay after the write comes to: the product of 9 and
    [delay_time] is rounded to the type of [delay_time] before the ceiling
    is taken.  At 9600 baud the delay is 11; for the [float]
    11184811 / 2^25 the product rounds to 3.0 and the delay is 3, one less
    than the ceiling of the exact product; for the [double] nearest to
    10 / 9 the product rounds to 10.0 and the delay is 10. *)
Lemma ceil_times_rounds_the_product :
  ceil_times 9 byte_time_9600 = 11
  /\ ceil_times 9 (mkFloating c_float (S754_finite false 11184811 (-25))) = 3
  /\ - ((- (9 * 11184811)) / 2 ^ 25) = 4
  /\ ceil_times 9 (mkFloating c_double (S754_finite false 5003999585967218 (-52))) = 10
  /\ - ((- (9 * 5003999585967218)) / 2 ^ 52) = 11.
Proof. repeat split. Qed.


(** C9.  [set_speed], at every speed, and [report_speed], however it ends,
    leave the controller object as they found it, in particular its
    [spindle_on] flag; [turn_on] leaves the flag true and [turn_off] leaves
    it false, whatever it was. *)
Theorem only_turn_on_and_turn_off_change_spindle_on :
  forall (m : Machine) (target_rpm : Z) (fuel : nat),
    this (exec (set_speed target_rpm) m) = this m
    /\ this (exec (report_speed fuel) m) = this m
    /\ spindle_on (this (exec (set_speed target_rpm) m)) = spindle_on (this m)
    /\ spindle_on (this (exec (report_speed fuel) m)) = spindle_on (this m)
    /\ spindle_on (this (exec turn_on m)) = true
    /\ spindle_on (this (exec turn_off m)) = false.
Proof.
  intros m rpm fuel.
  pose proof (keeps_set_speed rpm m) as Hs.
  pose proof (keeps_report_speed fuel m) as Hr.
  split; [exact Hs|].
  split; [exact Hr|].
  split; [rewrite Hs; reflexivity|].
  split; [rewrite Hr; reflexivity|].
  split; reflexivity.
Qed.

(** C10.  For every speed from 0 to 59 rpm the division by 60 gives 0
    before the multiplication happens: the frequency is 0, cells 3 and 4 of
    the frame are 00, and the frame sent is the one [set_speed(0)] sends. *)
Theorem set_speed_below_60_sends_zero :
  forall (m : Machine) (target_rpm : Z),
    0 <= target_rpm <= 59 ->
    set_speed_hz target_rpm = 0
    /\ (set_speed_msg target_rpm).[3] = 0x00
    /\ (set_speed_msg target_rpm).[4] = 0x00
    /\ set_speed_msg target_rpm = set_speed_msg 0
    /\ written (effects (set_speed target_rpm) m) = written (effects (set_speed 0) m)
    /\ written (effects (set_speed target_rpm) m)
       = [[0x00; 0x55; 0x00; 0x00; 0x00; 0x01; 0x54; 0xA9; 0xFF]].
Proof.
  intros m rpm Hrpm.
  assert (Hhz : set_speed_hz rpm = 0).
  { rewrite set_speed_hz_nonneg by (unfold INT_MAX; lia).
    rewrite Z.div_small by lia. reflexivity. }
  assert (Hmsg : set_speed_msg rpm = set_speed_msg 0).
  { rewrite (set_speed_msg_cells rpm), Hhz. reflexivity. }
  split; [exact Hhz|].
  rewrite !set_speed_written, Hmsg.
  repeat split.
Qed.

Lemma set_speed_below_60_sends_zero_witness :
  0 <= 59 <= 59
  /\ set_speed_hz 59 = 0
  /\ set_speed_msg 59 = set_speed_msg 0.
Proof.
  assert (H : 0 <= 59 <= 59) by lia.
  split; [exact H|].
  pose proof (set_speed_below_60_sends_zero
                (mkMachine (mkControl true)
                   (mkModbus false (mkSerial [] []) byte_time_9600) []) 59 H) as T.
  split; [exact (proj1 T) | exact (proj1 (proj2 (proj2 (proj2 T))))].
Defined.

(** * Further properties of the four operations *)

(** ** The checksum statements *)

(** X1.  On a nine-cell array of bytes the checksum statements of
    [turn_on] touch cells 7 and 8 only, what they put there are bytes that
    depend on cells 2..6 alone (what cells 7 and 8 held before is lost),
    and running them a second time changes nothing. *)
Theorem turn_on_checksum_footprint :
  forall b0 b1 b2 b3 b4 b5 b6 b7 b8 b7' b8' : Z,
    0 <= b2 < 256 -> 0 <= b3 < 256 -> 0 <= b4 < 256 ->
    0 <= b5 < 256 -> 0 <= b6 < 256 ->
    let r := turn_on_checksum [b0; b1; b2; b3; b4; b5; b6; b7; b8] in
    length r = 9%nat
    /\ firstn 7 r = [b0; b1; b2; b3; b4; b5; b6]
    /\ r.[7] = b2 ^^ b3 ^^ b4 ^^ b5 ^^ b6
    /\ r.[8] = (b2 + b3 + b4 + b5 + b6 + r.[7]) mod 256
    /\ 0 <= r.[7] < 256
    /\ 0 <= r.[8] < 256
    /\ turn_on_checksum [b0; b1; b2; b3; b4; b5; b6; b7'; b8'] = r
    /\ turn_on_checksum r = r.
Proof.
  intros b0 b1 b2 b3 b4 b5 b6 b7 b8 b7' b8' H2 H3 H4 H5 H6 r.
  pose proof (turn_on_checksum_cells b0 b1 b2 b3 b4 b5 b6 b7 b8 H2 H3 H4 H5 H6) as Hr.
  fold r in Hr.
  assert (Hx : r.[7] = to_char (b2 ^^ b3 ^^ b4 ^^ b5 ^^ b6)) by reflexivity.
  rewrite Hr.
  split; [reflexivity|].
  split; [reflexivity|].
  split; [reflexivity|].
  split; [reflexivity|].
  split.
  { rewrite <- Hr, Hx. apply to_char_range. }
  split.
  { cbn [get nth]. apply Z.mod_pos_bound. lia. }
  split.
  { apply turn_on_checksum_cells; assumption. }
  apply turn_on_checksum_cells; assumption.
Qed.

Lemma turn_on_checksum_footprint_witness :
  turn_on_checksum [0x00; 0x55; 0x00; 0x13; 0x88; 0x01; 0x54; 0xA9; 0xFF]
  = [0x00; 0x55; 0x00; 0x13; 0x88; 0x01; 0x54; 0xCE; 0xBE]
  /\ turn_on_checksum [0x00; 0x55; 0x00; 0x13; 0x88; 0x01; 0x54; 0x00; 0x00]
     = turn_on_checksum [0x00; 0x55; 0x00; 0x13; 0x88; 0x01; 0x54; 0xA9; 0xFF].
Proof.
  pose proof (turn_on_checksum_footprint
                0x00 0x55 0x00 0x13 0x88 0x01 0x54 0xA9 0xFF 0x00 0x00
                ltac:(lia) ltac:(lia) ltac:(lia) ltac:(lia) ltac:(lia)) as T.
  cbv zeta in T.
  split; [reflexivity|].
  exact (proj1 (proj2 (proj2 (proj2 (proj2 (proj2 (proj2 T))))))).
Defined.

(** ** The frequency field of [set_speed] *)

Lemma int_quot_60_range (rpm : Z) :
  INT_MIN <= rpm <= INT_MAX -> -35791394 <= Z.quot rpm 60 <= 35791394.
Proof.
  unfold INT_MIN, INT_MAX. intros [Hlo Hhi]. split.
  - change (-35791394) with (Z.quot (- 2 ^ 31) 60).
    apply Z.quot_le_mono; lia.
  - change 35791394 with (Z.quot (2 ^ 31 - 1) 60).
    apply Z.quot_le_mono; lia.
Qed.

Lemma set_speed_hz_int (rpm : Z) :
  INT_MIN <= rpm <= INT_MAX ->
  set_speed_hz rpm = (Z.quot rpm 60 * 100) mod 2 ^ 32.
Proof.
  intros H. pose proof (int_quot_60_range rpm H) as Hq.
  unfold set_speed_hz, int_mul, int_div.
  rewrite to_uint_to_int.
  rewrite (to_int_small (Z.quot rpm 60)) by (unfold INT_MIN, INT_MAX; lia).
  reflexivity.
Qed.

Lemma frequency_field_set_speed (rpm : Z) :
  frequency_field (set_speed_msg rpm) = set_speed_hz rpm mod 65536.
Proof.
  unfold frequency_field. rewrite set_speed_msg_cells. cbn [get nth].
  rewrite byte_hi, byte_lo.
  change 65536 with (256 * 256).
  rewrite Z.rem_mul_r by lia. lia.
Qed.

(** X2.  For every [int] speed, negative and oversized ones included, the
    frame carries in cells 3 and 4 the truncated quotient by 60 times 100,
    cut to 16 bits: nothing is checked, out-of-range values wrap. *)
Theorem set_speed_field_wraps_to_16_bits :
  forall target_rpm : Z,
    INT_MIN <= target_rpm <= INT_MAX ->
    frequency_field (set_speed_msg target_rpm)
    = (Z.quot target_rpm 60 * 100) mod 65536.
Proof.
  intros rpm H.
  rewrite frequency_field_set_speed, (set_speed_hz_int rpm H).
  apply Z.mod_mod_divide. exists 65536. reflexivity.
Qed.

Lemma set_speed_field_wraps_to_16_bits_witness :
  frequency_field (set_speed_msg (-60)) = 0xFF9C
  /\ frequency_field (set_speed_msg 39360) = 64.
Proof.
  split.
  - rewrite (set_speed_field_wraps_to_16_bits (-60))
      by (unfold INT_MIN, INT_MAX; lia).
    reflexivity.
  - rewrite (set_speed_field_wraps_to_16_bits 39360)
      by (unfold INT_MIN, INT_MAX; lia).
    reflexivity.
Defined.

(** X3.  Below 39360 rpm the frequency fits the field: reading the field
    back and converting it the way [report_speed] converts a frequency
    gives the speed rounded down to a multiple of 60, and two speeds get
    the same frame exactly when they have the same quotient by 60. *)
Theorem set_speed_round_trip :
  forall rpm1 rpm2 : Z,
    0 <= rpm1 < 39360 -> 0 <= rpm2 < 39360 ->
    frequency_field (set_speed_msg rpm1) = rpm1 / 60 * 100
    /\ rpm_of_hz (frequency_field (set_speed_msg rpm1)) = rpm1 - rpm1 mod 60
    /\ (set_speed_msg rpm1 = set_speed_msg rpm2 <-> rpm1 / 60 = rpm2 / 60).
Proof.
  assert (Hfield : forall rpm, 0 <= rpm < 39360 ->
            frequency_field (set_speed_msg rpm) = rpm / 60 * 100).
  { intros rpm H.
    rewrite frequency_field_set_speed.
    rewrite set_speed_hz_nonneg by (unfold INT_MAX; lia).
    assert (0 <= rpm / 60 < 656).
    { split; [apply Z.div_pos; lia | apply Z.div_lt_upper_bound; lia]. }
    apply Z.mod_small. lia. }
  intros rpm1 rpm2 H1 H2.
  split; [apply Hfield; exact H1|].
  split.
  - rewrite (Hfield rpm1 H1).
    assert (0 <= rpm1 / 60 < 656).
    { split; [apply Z.div_pos; lia | apply Z.div_lt_upper_bound; lia]. }
    rewrite rpm_of_hz_uint by lia.
    rewrite Z.div_mul by lia.
    rewrite (Z.mod_eq rpm1 60) by lia. lia.
  - split.
    + intros E. apply (f_equal frequency_field) in E.
      rewrite (Hfield rpm1 H1), (Hfield rpm2 H2) in E. lia.
    + intros E.
      rewrite (set_speed_msg_cells rpm1), (set_speed_msg_cells rpm2).
      rewrite !set_speed_hz_nonneg by (unfold INT_MAX; lia).
      rewrite E. reflexivity.
Qed.

Lemma set_speed_round_trip_witness :
  rpm_of_hz (frequency_field (set_speed_msg 24059)) = 24000
  /\ (set_speed_msg 24059 = set_speed_msg 24000 <-> 24059 / 60 = 24000 / 60).
Proof.
  pose proof (set_speed_round_trip 24059 24000 ltac:(lia) ltac:(lia)) as T.
  split; [exact (proj1 (proj2 T)) | exact (proj2 (proj2 T))].
Defined.

(** X4.  Whatever speed is asked for, the low frequency byte in cell 4 is
    a multiple of 4.  So the 06 the literal of [set_speed] holds in cell 4
    never reaches the wire, and the frame of [set_speed] is never the
    frame of [turn_off] nor the frame of [turn_on]. *)
Theorem set_speed_frame_is_no_power_frame :
  forall target_rpm : Z,
    (set_speed_msg target_rpm).[4] mod 4 = 0
    /\ (set_speed_msg target_rpm).[4] <> 0x06
    /\ set_speed_msg target_rpm <> turn_off_msg
    /\ set_speed_msg target_rpm <> turn_on_msg.
Proof.
  intros rpm.
  assert (H4 : (set_speed_msg rpm).[4] mod 4 = 0).
  { rewrite set_speed_msg_cells. cbn [get nth]. rewrite byte_lo.
    rewrite Z.mod_mod_divide by (exists 64; reflexivity).
    unfold set_speed_hz, int_mul. rewrite to_uint_to_int. unfold to_uint.
    rewrite Z.mod_mod_divide by (exists (2 ^ 30); reflexivity).
    replace (int_div rpm 60 * 100) with (int_div rpm 60 * 25 * 4) by lia.
    apply Z.mod_mul. lia. }
  split; [exact H4|].
  split.
  { intros E. rewrite E in H4. discriminate H4. }
  split.
  { intros E. rewrite E in H4. discriminate H4. }
  intros E. apply (f_equal (fun msg => msg.[7])) in E.
  rewrite set_speed_msg_cells in E. discriminate E.
Qed.

(** ** What [report_speed] reports *)

Lemma printed_report_speed (fuel : nat) (m : Machine) :
  (length (rx_buffer (serial (modbus m))) < fuel)%nat ->
  printed (effects (report_speed fuel) m)
  = (if (13 <=? length (rx_line (serial (modbus m))))%nat
     then [rpm_of_hz (report_speed_hz
             (store_all 0 (firstn 13 (rx_line (serial (modbus m)))) speed_init))]
     else []).
Proof.
  intros Hfuel.
  rewrite (report_speed_effects fuel m Hfuel).
  rewrite !printed_app, printed_discards, printed_getc.
  destruct (13 <=? length (rx_line (serial (modbus m))))%nat; reflexivity.
Qed.

(** X5.  [report_speed] checks nothing of what it receives: when thirteen
    bytes arrive, it returns and reports the number decoded from the
    fourth to the eighth of them.  The bytes still buffered when it was
    called, the first three bytes of the frame, its last five and whatever
    follows have no influence. *)
Theorem report_speed_reads_cells_3_to_7 :
  forall (fuel : nat) (m : Machine)
         (c0 c1 c2 c3 c4 c5 c6 c7 c8 c9 c10 c11 c12 : Z) (rest : list Z),
    (length (rx_buffer (serial (modbus m))) < fuel)%nat ->
    rx_line (serial (modbus m))
    = [c0; c1; c2; c3; c4; c5; c6; c7; c8; c9; c10; c11; c12] ++ rest ->
    outcome (report_speed fuel) m = Done tt
    /\ printed (effects (report_speed fuel) m)
       = [rpm_of_hz (decode_hz (to_char c3) (to_char c4) (to_char c5)
                               (to_char c6) (to_char c7))]
    /\ rx_line (serial (modbus (exec (report_speed fuel) m))) = rest.
Proof.
  intros fuel m c0 c1 c2 c3 c4 c5 c6 c7 c8 c9 c10 c11 c12 rest Hfuel Hline.
  split.
  { unfold outcome. rewrite (report_speed_spec fuel m Hfuel), Hline. reflexivity. }
  split.
  { rewrite (printed_report_speed fuel m Hfuel), Hline. reflexivity. }
  unfold exec. rewrite (report_speed_spec fuel m Hfuel), Hline. reflexivity.
Qed.

Lemma report_speed_reads_cells_3_to_7_witness :
  printed (effects (report_speed 2)
             (mkMachine (mkControl false)
                (mkModbus true
                   (mkSerial [0x7F]
                      [0xDE; 0xAD; 0x09; 0x02; 0x04; 0x00; 0x00; 0x00;
                       0xBE; 0xEF; 0x00; 0x00; 0x00; 0x55])
                   byte_time_9600) []))
  = [rpm_of_hz (decode_hz (to_char 0x02) (to_char 0x04) (to_char 0x00)
                          (to_char 0x00) (to_char 0x00))].
Proof.
  pose proof (report_speed_reads_cells_3_to_7 2
                (mkMachine (mkControl false)
                   (mkModbus true
                      (mkSerial [0x7F]
                         [0xDE; 0xAD; 0x09; 0x02; 0x04; 0x00; 0x00; 0x00;
                          0xBE; 0xEF; 0x00; 0x00; 0x00; 0x55])
                      byte_time_9600) [])
                0xDE 0xAD 0x09 0x02 0x04 0x00 0x00 0x00 0xBE 0xEF 0x00 0x00 0x00
                [0x55] ltac:(simpl; lia) eq_refl) as T.
  exact (proj1 (proj2 T)).
Defined.

Lemma decode_hz_uint (a b c d e : Z) : 0 <= decode_hz a b c d e < 2 ^ 32.
Proof.
  unfold decode_hz, uint_of_double, to_uint. apply Z.mod_pos_bound. lia.
Qed.

(** X6.  Whatever arrives, the number [report_speed] prints is a multiple
    of 60 below 2^32: the frequency is cut to whole hundreds before it is
    turned into a speed. *)
Theorem report_speed_reports_multiples_of_60 :
  forall (fuel : nat) (m : Machine) (rpm : Z),
    (length (rx_buffer (serial (modbus m))) < fuel)%nat ->
    In rpm (printed (effects (report_speed fuel) m)) ->
    rpm mod 60 = 0 /\ 0 <= rpm < 2 ^ 32.
Proof.
  intros fuel m rpm Hfuel Hin.
  rewrite (printed_report_speed fuel m Hfuel) in Hin.
  destruct (13 <=? length (rx_line (serial (modbus m))))%nat; [|destruct Hin].
  destruct Hin as [Hrpm|[]]. subst rpm.
  unfold report_speed_hz.
  set (hz := decode_hz _ _ _ _ _).
  assert (Hhz : 0 <= hz < 2 ^ 32) by apply decode_hz_uint.
  rewrite (rpm_of_hz_uint hz Hhz).
  assert (0 <= hz / 100) by (apply Z.div_pos; lia).
  assert (hz / 100 * 100 <= hz) by (rewrite Z.mul_comm; apply Z.mul_div_le; lia).
  split; [apply Z.mod_mul; lia | lia].
Qed.

Lemma report_speed_reports_multiples_of_60_witness :
  16980 mod 60 = 0 /\ 0 <= 16980 < 2 ^ 32.
Proof.
  apply (report_speed_reports_multiples_of_60 1
           (mkMachine (mkControl true)
              (mkModbus false
                 (mkSerial []
                    [0xFF; 0xFF; 0xFF; 0xFF; 0xFF; 0xFF; 0xFF; 0xFF;
                     0xFF; 0xFF; 0xFF; 0xFF; 0xFF])
                 byte_time_9600) [])
           16980 ltac:(simpl; lia)).
  vm_compute. left. reflexivity.
Defined.

(** X7.  When the drive sends fewer than thirteen bytes and falls silent,
    [report_speed] reads all of them and hangs in the next read: it
    neither returns nor reports anything. *)
Theorem report_speed_blocks_on_a_short_frame :
  forall (fuel : nat) (m : Machine),
    (length (rx_buffer (serial (modbus m))) < fuel)%nat ->
    (length (rx_line (serial (modbus m))) < 13)%nat ->
    outcome (report_speed fuel) m = Blocked
    /\ printed (effects (report_speed fuel) m) = []
    /\ effects (report_speed fuel) m
       = discards (rx_buffer (serial (modbus m)))
           ++ [SerialReadable false]
           ++ map SerialGetc (rx_line (serial (modbus m)))
    /\ rx_line (serial (modbus (exec (report_speed fuel) m))) = [].
Proof.
  intros fuel m Hfuel Hshort.
  assert (Hleb : (13 <=? length (rx_line (serial (modbus m))))%nat = false)
    by (apply Nat.leb_gt; exact Hshort).
  split.
  { unfold outcome. rewrite (report_speed_spec fuel m Hfuel), Hleb. reflexivity. }
  split.
  { rewrite (printed_report_speed fuel m Hfuel), Hleb. reflexivity. }
  split.
  { rewrite (report_speed_effects fuel m Hfuel), Hleb.
    rewrite firstn_all2 by lia. rewrite app_nil_r. reflexivity. }
  unfold exec. rewrite (report_speed_spec fuel m Hfuel).
  unfold after_report, with_trace, with_serial.
  cbn [snd modbus serial rx_line].
  apply skipn_all2. lia.
Qed.

Lemma report_speed_blocks_on_a_short_frame_witness :
  outcome (report_speed 2)
    (mkMachine (mkControl true)
       (mkModbus false (mkSerial [0xFF] [0x00; 0x55; 0; 0; 2; 5]) byte_time_9600) [])
  = Blocked.
Proof.
  pose proof (report_speed_blocks_on_a_short_frame 2
                (mkMachine (mkControl true)
                   (mkModbus false (mkSerial [0xFF] [0x00; 0x55; 0; 0; 2; 5])
                      byte_time_9600) [])
                ltac:(simpl; lia) ltac:(simpl; lia)) as T.
  exact (proj1 T).
Defined.

(** ** Decimal cells *)

Lemma digit_cases (P : Z -> bool) :
  forallb P (map Z.of_nat (seq 0 10)) = true ->
  forall z, digit z -> P z = true.
Proof.
  intros Hall z Hz. unfold digit in Hz.
  rewrite forallb_forall in Hall. apply Hall.
  rewrite <- (Z2Nat.id z) by lia.
  apply in_map, in_seq. lia.
Qed.

Lemma below_1000_cases (P : Z -> bool) :
  forallb P (map Z.of_nat (seq 0 1000)) = true ->
  forall z, 0 <= z < 1000 -> P z = true.
Proof.
  intros Hall z Hz.
  rewrite forallb_forall in Hall. apply Hall.
  rewrite <- (Z2Nat.id z) by lia.
  apply in_map, in_seq. lia.
Qed.

Lemma trunc_double_by_shift (f : float) : trunc_double f = trunc_by_shift f.
Proof.
  unfold trunc_double, trunc_by_shift.
  destruct (Prim2SF f) as [sg|sg| |sg m e]; try reflexivity.
  cbv zeta. destruct (Z.leb_spec 0 e) as [He|He].
  - rewrite Z.shiftl_mul_pow2 by lia. reflexivity.
  - rewrite Z.shiftr_div_pow2 by lia. reflexivity.
Qed.

Lemma drops_fraction_digits (i d e : Z) :
  0 <= i < 1000 -> digit d -> digit e -> drops_fraction i d e = true.
Proof.
  intros Hi Hd He.
  revert e He. apply digit_cases.
  revert d Hd. apply (digit_cases (fun d => forallb _ _)).
  revert i Hi. apply (below_1000_cases (fun i => forallb _ _)).
  vm_compute. reflexivity.
Qed.

(** Line 286 on five decimal digits: the two digits weighted 0.1 and 0.01
    add less than one and are lost in the conversion to an integer. *)
Lemma decode_hz_digits (a b c d e : Z) :
  digit a -> digit b -> digit c -> digit d -> digit e ->
  decode_hz a b c d e = 100 * a + 10 * b + c.
Proof.
  unfold digit. intros Ha Hb Hc Hd He.
  unfold decode_hz, uint_of_double, int_mul.
  rewrite (to_int_small (a * 100)), (to_int_small (b * 10)), (to_int_small (c * 1))
    by (unfold INT_MIN, INT_MAX; lia).
  rewrite (to_int_small (a * 100 + b * 10)) by (unfold INT_MIN, INT_MAX; lia).
  rewrite (to_int_small (a * 100 + b * 10 + c * 1)) by (unfold INT_MIN, INT_MAX; lia).
  rewrite trunc_double_by_shift.
  assert (Hi : 0 <= a * 100 + b * 10 + c * 1 < 1000) by lia.
  pose proof (drops_fraction_digits _ d e Hi Hd He) as Hchk.
  unfold drops_fraction in Hchk. apply Z.eqb_eq in Hchk.
  rewrite Hchk. rewrite to_uint_small by lia. lia.
Qed.

(** X8.  When the fourth to eighth byte of the frame are decimal digits,
    the decoded frequency is the number written by the first three of
    them, and the speed reported is 60 times the first one alone: the
    other four digits never show in the report. *)
Theorem report_speed_on_decimal_cells :
  forall (fuel : nat) (m : Machine)
         (c0 c1 c2 a b c d e c8 c9 c10 c11 c12 : Z) (rest : list Z),
    (length (rx_buffer (serial (modbus m))) < fuel)%nat ->
    rx_line (serial (modbus m))
    = [c0; c1; c2; a; b; c; d; e; c8; c9; c10; c11; c12] ++ rest ->
    digit a -> digit b -> digit c -> digit d -> digit e ->
    decode_hz a b c d e = 100 * a + 10 * b + c
    /\ printed (effects (report_speed fuel) m) = [60 * a].
Proof.
  intros fuel m c0 c1 c2 a b c d e c8 c9 c10 c11 c12 rest
         Hfuel Hline Ha Hb Hc Hd He.
  pose proof (decode_hz_digits a b c d e Ha Hb Hc Hd He) as Hhz.
  split; [exact Hhz|].
  rewrite (printed_report_speed fuel m Hfuel), Hline.
  cbn [app length Nat.leb firstn store_all speed_init set].
  unfold report_speed_hz. cbn [get nth].
  unfold digit in *.
  rewrite !to_char_small by lia.
  rewrite Hhz, rpm_of_hz_uint by lia.
  replace (100 * a + 10 * b + c) with (a * 100 + (10 * b + c)) by lia.
  rewrite Z.div_add_l by lia.
  rewrite (Z.div_small (10 * b + c)) by lia.
  f_equal. lia.
Qed.

Lemma report_speed_on_decimal_cells_witness :
  decode_hz 4 9 9 9 9 = 100 * 4 + 10 * 9 + 9
  /\ printed (effects (report_speed 1)
                (mkMachine (mkControl true)
                   (mkModbus false
                      (mkSerial []
                         [0x00; 0x55; 0; 4; 9; 9; 9; 9; 0x01; 0x00; 0x5C; 0xDF; 0xFF])
                      byte_time_9600) []))
     = [240].
Proof.
  pose proof (report_speed_on_decimal_cells 1
                (mkMachine (mkControl true)
                   (mkModbus false
                      (mkSerial []
                         [0x00; 0x55; 0; 4; 9; 9; 9; 9; 0x01; 0x00; 0x5C; 0xDF; 0xFF])
                      byte_time_9600) [])
                0x00 0x55 0 4 9 9 9 9 0x01 0x00 0x5C 0xDF 0xFF []
                ltac:(simpl; lia) eq_refl
                ltac:(unfold digit; lia) ltac:(unfold digit; lia)
                ltac:(unfold digit; lia) ltac:(unfold digit; lia)
                ltac:(unfold digit; lia)) as T.
  split; [exact (proj1 T) | exact (proj2 T)].
Defined.

(** ** [report_speed] only listens *)

Lemma listens_ret {A : Type} (a : A) : listens_only (ret a).
Proof.
  intros m. repeat split. exists []. rewrite app_nil_r. split; [reflexivity | constructor].
Qed.

Lemma listens_bind {A B : Type} (c : M A) (k : A -> M B) :
  listens_only c -> (forall a, listens_only (k a)) -> listens_only (bind c k).
Proof.
  intros Hc Hk m. unfold exec, bind.
  specialize (Hc m). unfold exec in Hc.
  destruct (c m) as [[a| |] m']; cbn [snd] in *; try exact Hc.
  destruct Hc as (Hd & Ht & es & Hes & Hrx).
  destruct (Hk a m') as (Hd' & Ht' & es' & Hes' & Hrx').
  unfold exec in Hd', Ht', Hes'.
  split; [congruence|]. split; [congruence|].
  exists (es ++ es'). split.
  - rewrite Hes', Hes, app_assoc. reflexivity.
  - apply Forall_app. split; assumption.
Qed.

Lemma listens_one (e : event) (m m' : Machine) :
  is_rx_event e ->
  dir_output (modbus m') = dir_output (modbus m) ->
  delay_time (modbus m') = delay_time (modbus m) ->
  trace m' = trace m ++ [e] ->
  dir_output (modbus m') = dir_output (modbus m)
  /\ delay_time (modbus m') = delay_time (modbus m)
  /\ exists es, trace m' = trace m ++ es /\ Forall is_rx_event es.
Proof.
  intros He Hd Ht Htr. split; [exact Hd|]. split; [exact Ht|].
  exists [e]. split; [exact Htr | constructor; [exact He | constructor]].
Qed.

Lemma listens_serial_readable : listens_only serial_readable.
Proof.
  intros m. apply (listens_one (SerialReadable
    match rx_buffer (serial (modbus m)) with [] => false | _ :: _ => true end));
    [exact I | reflexivity ..].
Qed.

Lemma listens_serial_getc : listens_only serial_getc.
Proof.
  intros [ctl [dir [[|c buf] [|c' line]] dt] tr].
  - split; [reflexivity|]. split; [reflexivity|].
    exists []. split; [cbn; rewrite app_nil_r; reflexivity | constructor].
  - apply (listens_one (SerialGetc c')); [exact I | reflexivity ..].
  - apply (listens_one (SerialGetc c)); [exact I | reflexivity ..].
  - apply (listens_one (SerialGetc c)); [exact I | reflexivity ..].
Qed.

Lemma listens_streams_printf (rpm : Z) : listens_only (streams_printf rpm).
Proof.
  intros m. apply (listens_one (Printf rpm)); [exact I | reflexivity ..].
Qed.

Lemma listens_clear_rx (fuel : nat) : listens_only (clear_rx fuel).
Proof.
  induction fuel as [|fuel IH].
  - intros m. apply (listens_ret tt m).
  - cbn [clear_rx]. apply listens_bind; [apply listens_serial_readable|].
    intros [|]; [|apply listens_ret].
    apply listens_bind; [apply listens_serial_getc | intros _; exact IH].
Qed.

Lemma listens_read_answer (n : nat) :
  forall i speed, listens_only (read_answer n i speed).
Proof.
  induction n as [|n IH]; intros i speed; cbn [read_answer].
  - apply listens_ret.
  - apply listens_bind; [apply listens_serial_getc | intros c; apply IH].
Qed.

(** X9.  [report_speed] never transmits.  Whatever the iteration budget
    and however the call ends, it leaves the direction line as it found
    it and adds to the trace nothing but polls, reads and the report: no
    write, no delay, no switch of direction. *)
Theorem report_speed_never_transmits :
  forall (fuel : nat) (m : Machine),
    dir_output (modbus (exec (report_speed fuel) m)) = dir_output (modbus m)
    /\ delay_time (modbus (exec (report_speed fuel) m)) = delay_time (modbus m)
    /\ written (skipn (length (trace m)) (trace (exec (report_speed fuel) m))) = []
    /\ exists es,
         trace (exec (report_speed fuel) m) = trace m ++ es
         /\ Forall is_rx_event es.
Proof.
  intros fuel m.
  assert (H : listens_only (report_speed fuel)).
  { unfold report_speed.
    apply listens_bind; [apply listens_clear_rx | intros _].
    apply listens_bind; [apply listens_read_answer | intros speed].
    apply listens_streams_printf. }
  destruct (H m) as (Hd & Ht & es & Hes & Hrx).
  split; [exact Hd|]. split; [exact Ht|].
  split; [|exists es; split; assumption].
  rewrite Hes, skipn_length_app.
  clear Hes. induction Hrx as [|e es He _ IH]; [reflexivity|].
  destruct e; cbn [written]; try exact IH; destruct He.
Qed.

(** ** Sequences of sender calls *)

Lemma perform_spec (c : call) (m : Machine) :
  perform c m
  = (Done tt,
     mkMachine (mkControl (flag_after (spindle_on (this m)) c))
       (mkModbus false (serial (modbus m)) (delay_time (modbus m)))
       (trace m ++ transmission (frame_of c) (delay_time (modbus m)))).
Proof.
  destruct m as [[on] [dir ser dt] tr].
  destruct c as [| |rpm]; cbn [perform frame_of flag_after]; run_sender.
  - rewrite length_turn_on_msg. reflexivity.
  - rewrite length_turn_off_msg. reflexivity.
  - rewrite length_set_speed_msg. reflexivity.
Qed.

Lemma perform_all_spec (cs : list call) :
  forall m : Machine,
    perform_all cs m
    = (Done tt,
       mkMachine (mkControl (fold_left flag_after cs (spindle_on (this m))))
         (mkModbus (match cs with [] => dir_output (modbus m) | _ :: _ => false end)
            (serial (modbus m)) (delay_time (modbus m)))
         (trace m
            ++ flat_map (fun c => transmission (frame_of c) (delay_time (modbus m))) cs)).
Proof.
  induction cs as [|c cs IH]; intros m.
  - destruct m as [[on] [dir ser dt] tr]. cbn. unfold ret. cbn.
    rewrite app_nil_r. reflexivity.
  - cbn [perform_all].
    rewrite (bind_done _ _ _ _ tt (perform_spec c m)).
    rewrite IH.
    cbn [this modbus trace serial dir_output delay_time spindle_on
         fold_left flat_map].
    rewrite <- app_assoc.
    destruct cs; reflexivity.
Qed.

Lemma written_transmissions (dt : c_floating) (cs : list call) :
  written (flat_map (fun c => transmission (frame_of c) dt) cs) = map frame_of cs.
Proof.
  induction cs as [|c cs IH]; [reflexivity|].
  cbn [flat_map map]. unfold transmission at 1. cbn [app written].
  rewrite IH. reflexivity.
Qed.

(** X10.  Any sequence of calls of [turn_on], [turn_off] and [set_speed]
    runs to its end.  On the wire go the frames of the calls, one
    transmission each, in the order of the calls; the flag ends as the last
    [turn_on] or [turn_off] set it, or as it was if there was none; the
    receive side is not touched; and after at least one call the direction
    line is low, whatever it was before. *)
Theorem sender_calls_compose :
  forall (cs : list call) (m : Machine),
    outcome (perform_all cs) m = Done tt
    /\ effects (perform_all cs) m
       = flat_map (fun c => transmission (frame_of c) (delay_time (modbus m))) cs
    /\ written (effects (perform_all cs) m) = map frame_of cs
    /\ length (effects (perform_all cs) m) = (6 * length cs)%nat
    /\ spindle_on (this (exec (perform_all cs) m))
       = fold_left flag_after cs (spindle_on (this m))
    /\ serial (modbus (exec (perform_all cs) m)) = serial (modbus m)
    /\ dir_output (modbus (exec (perform_all cs) m))
       = match cs with [] => dir_output (modbus m) | _ :: _ => false end.
Proof.
  intros cs m.
  assert (He : effects (perform_all cs) m
               = flat_map (fun c => transmission (frame_of c) (delay_time (modbus m))) cs).
  { apply effects_of_trace. unfold exec. rewrite perform_all_spec. reflexivity. }
  split; [unfold outcome; rewrite perform_all_spec; reflexivity|].
  split; [exact He|].
  split; [rewrite He; apply written_transmissions|].
  split.
  { rewrite He. clear He. induction cs as [|c cs IH]; [reflexivity|].
    cbn [flat_map]. rewrite length_app, IH. cbn [transmission length]. lia. }
  unfold exec. rewrite perform_all_spec. cbn [snd this modbus spindle_on serial dir_output].
  repeat split.
Qed.

(** ** Speeds that round to nothing *)

(** X11.  The division by 60 truncates towards zero on both sides: every
    speed from -59 to 59 rpm, the negative ones included, gives the
    frequency 0 and the frame [set_speed(0)] sends, while -60 rpm already
    wraps to a frequency of 2^32 - 100. *)
Theorem set_speed_small_speeds_send_zero :
  forall (m : Machine) (target_rpm : Z),
    -59 <= target_rpm <= 59 ->
    set_speed_hz target_rpm = 0
    /\ set_speed_msg target_rpm = set_speed_msg 0
    /\ effects (set_speed target_rpm) m = effects (set_speed 0) m
    /\ set_speed_hz (-60) = 2 ^ 32 - 100.
Proof.
  intros m rpm Hrpm.
  assert (Hq : Z.quot rpm 60 = 0) by (apply Z.quot_small_iff; lia).
  assert (Hhz : set_speed_hz rpm = 0).
  { rewrite set_speed_hz_int by (unfold INT_MIN, INT_MAX; lia).
    rewrite Hq. reflexivity. }
  assert (Hmsg : set_speed_msg rpm = set_speed_msg 0).
  { rewrite (set_speed_msg_cells rpm), Hhz. reflexivity. }
  split; [exact Hhz|]. split; [exact Hmsg|].
  split; [|reflexivity].
  rewrite (effects_of_trace _ _ _ (set_speed_trace rpm m)).
  rewrite (effects_of_trace _ _ _ (set_speed_trace 0 m)).
  rewrite Hmsg. reflexivity.
Qed.

Lemma set_speed_small_speeds_send_zero_witness :
  set_speed_hz (-59) = 0 /\ set_speed_msg (-59) = set_speed_msg 0.
Proof.
  pose proof (set_speed_small_speeds_send_zero
                (mkMachine (mkControl true)
                   (mkModbus false (mkSerial [] []) byte_time_9600) [])
                (-59) ltac:(lia)) as T.
  split; [exact (proj1 T) | exact (proj1 (proj2 T))].
Defined.
